(** * ReqShield documentation build: version resolution in [docs/conf.py]

    A shallow embedding of the executable part of the Sphinx configuration
    module: [get_version] with its three-tier fallback, and the module-level
    assignments that depend on the clock and on the resolved version.

    Python [str] values are modelled as [string]; each character stands for
    one code point below 256.  The process environment is a finite map, and
    the outside world (clock, shell) is a record threaded through a small
    state-and-exception monad. *)

From Stdlib Require Import ZArith NArith Ascii String DecimalString DecimalN.
From stdpp Require Import base gmap strings list fin_maps.

Local Open Scope N_scope.

(** ** Python string primitives *)

Module Py.

(** [bool(s)] for a [str]: only the empty string is falsy. *)
Definition truthy (s : string) : bool :=
  match s with
  | EmptyString => false
  | String _ _ => true
  end.

(** [bool(v)] for the result of [os.environ.get]: [None] is falsy. *)
Definition truthy_opt (v : option string) : bool :=
  match v with
  | None => false
  | Some s => truthy s
  end.

(** [a or b] on strings. *)
Definition or (a b : string) : string :=
  if truthy a then a else b.

(** [str.isspace] on one code point below 256: TAB..CR, FS..US, SPACE,
    NEL (0x85) and NBSP (0xA0). *)
Definition isspace (c : ascii) : bool :=
  let n := N_of_ascii c in
  ((9 <=? n) && (n <=? 13)) || ((28 <=? n) && (n <=? 32))
  || (n =? 133) || (n =? 160).

(** [str.lstrip()]: drop the leading run of whitespace. *)
Fixpoint lstrip (s : string) : string :=
  match s with
  | EmptyString => EmptyString
  | String c s' => if isspace c then lstrip s' else s
  end.

(** [str.rstrip()]: drop the trailing run of whitespace. *)
Fixpoint rstrip (s : string) : string :=
  match s with
  | EmptyString => EmptyString
  | String c s' =>
      let r := rstrip s' in
      if isspace c && negb (truthy r) then EmptyString else String c r
  end.

(** [str.strip()] with no argument. *)
Definition strip (s : string) : string := rstrip (lstrip s).

(** Every character of [s] is whitespace. *)
Fixpoint blank (s : string) : bool :=
  match s with
  | EmptyString => true
  | String c s' => isspace c && blank s'
  end.

(** Last character of a string, if any. *)
Fixpoint last (s : string) : option ascii :=
  match s with
  | EmptyString => None
  | String c EmptyString => Some c
  | String _ s' => last s'
  end.

(** First character of a string, if any. *)
Definition first (s : string) : option ascii :=
  match s with
  | EmptyString => None
  | String c _ => Some c
  end.

End Py.

(** ** The outside world *)

(** Errors raised by [subprocess.Popen] and by reading its text stream; all
    of them are subclasses of [Exception]. *)
Inductive io_error :=
| FileNotFoundError
| PermissionError
| OSError
| UnicodeDecodeError
| ValueError.

(** Exception classes, as far as [except Exception] tells them apart. *)
Inductive exn :=
| IOErr (e : io_error)
| KeyboardInterrupt
| SystemExit.

Definition is_Exception (e : exn) : bool :=
  match e with
  | IOErr _ => true
  | KeyboardInterrupt | SystemExit => false
  end.

(** What [pipe.stdout.read()] does on a spawned process. *)
Inductive read_result :=
| ReadRaises (e : io_error)
| ReadText (s : string).

(** The object returned by [Popen]: its text-mode stdout and the exit status
    the child ends with. *)
Record Pipe := mkPipe {
  stdout : read_result;
  returncode : Z
}.

(** What [Popen(cmd, stdout=PIPE, shell=True, universal_newlines=True)]
    does. *)
Inductive popen_result :=
| SpawnRaises (e : io_error)
| Spawned (p : Pipe).

(** [datetime.date]. *)
Record date := mkDate {
  year : N;
  month : N;
  day : N
}.

(** Effects performed on the outside world. *)
Inductive event :=
| EnvGet (key : string)
| ClockRead
| Spawn (cmd : string)
| PipeRead.

Global Instance event_eq_dec : EqDecision event.
Proof. solve_decision. Defined.

(** The state a build runs in: the process environment, the local date, the
    behaviour of the shell on each command line, and the effects performed so
    far (most recent first). *)
Record World := mkWorld {
  environ : gmap string string;
  today : date;
  shell : string -> popen_result;
  trace : list event
}.

Definition log (e : event) (w : World) : World :=
  {| environ := environ w; today := today w; shell := shell w;
     trace := e :: trace w |}.

(** ** State and exception monad *)

Inductive outcome (A : Type) :=
| Ret (a : A)
| Raise (e : exn).
Global Arguments Ret {A} a.
Global Arguments Raise {A} e.

Definition M (A : Type) : Type := World -> outcome A * World.

Global Instance M_ret : MRet M := fun A a w => (Ret a, w).

Global Instance M_bind : MBind M := fun A B k m w =>
  match m w with
  | (Ret a, w') => k a w'
  | (Raise e, w') => (Raise e, w')
  end.

(** [try: body / except Exception: handler]. *)
Definition try_except_Exception {A} (body handler : M A) : M A := fun w =>
  match body w with
  | (Ret a, w') => (Ret a, w')
  | (Raise e, w') => if is_Exception e then handler w' else (Raise e, w')
  end.

(** [os.environ.get(key)]. *)
Definition environ_get (key : string) : M (option string) := fun w =>
  (Ret (environ w !! key), log (EnvGet key) w).

(** [datetime.date.today()]. *)
Definition date_today : M date := fun w =>
  (Ret (today w), log ClockRead w).

(** [Popen(cmd, stdout=PIPE, shell=True, universal_newlines=True)]. *)
Definition Popen (cmd : string) : M Pipe := fun w =>
  match shell w cmd with
  | SpawnRaises e => (Raise (IOErr e), log (Spawn cmd) w)
  | Spawned p => (Ret p, log (Spawn cmd) w)
  end.

(** [pipe.stdout.read()]. *)
Definition stdout_read (pipe : Pipe) : M string := fun w =>
  match stdout pipe with
  | ReadRaises e => (Raise (IOErr e), log PipeRead w)
  | ReadText s => (Ret s, log PipeRead w)
  end.

(** ** [docs/conf.py] *)

Definition git_cmd : string := "git rev-parse --abbrev-ref HEAD".

(** The [try] block of [get_version] with its handler. *)
Definition get_version_git : M string :=
  try_except_Exception
    (pipe ← Popen git_cmd;
     out ← stdout_read pipe;
     let v := Py.strip (Py.or out "") in
     mret (Py.or v "latest"))
    (mret "latest").

Definition get_version : M string :=
  flag ← environ_get "READTHEDOCS";
  if decide (flag = Some "True") then
    v ← environ_get "READTHEDOCS_VERSION";
    match v with
    | Some s => if Py.truthy s then mret s else get_version_git
    | None => get_version_git
    end
  else get_version_git.

(** [date.strftime("%Y")] for a year that [datetime.date] can hold. *)
Definition strftime_Y (d : date) : string :=
  NilEmpty.string_of_uint (N.to_uint (year d)).

(** Values of the configuration dictionaries. *)
Inductive pyval :=
| PyBool (b : bool)
| PyStr (s : string).

(** The module-level names that depend on the clock or on the resolved
    version, with the constants next to them. *)
Record Conf := mkConf {
  project : string;
  author : string;
  year_now : string;
  copyright : string;
  version : string;
  release : string;
  language : string;
  root_doc : string;
  html_context : gmap string pyval
}.

(** Executing the module body top to bottom. *)
Definition conf : M Conf :=
  d ← date_today;
  let year_now := strftime_Y d in
  let copyright := "2024-" +:+ year_now in
  version ← get_version;
  let release := version in
  mret {| project := "ReqShield";
          author := "abmmhasan (infocyph)";
          year_now := year_now;
          copyright := copyright;
          version := version;
          release := release;
          language := "en";
          root_doc := "index";
          html_context :=
            <["conf_py_path" := PyStr "/docs/"]>
            (<["github_version" := PyStr version]>
            (<["github_repo" := PyStr "ReqShield"]>
            (<["github_user" := PyStr "infocyph"]>
            (<["display_github" := PyBool false]> ∅)))) |}.


(** A pygments lexer object, by class and options. *)
Inductive lexer :=
| PhpLexer (startinline : bool)
| OtherLexer (name : string).


(** The two assignments into the dictionary [sphinx.highlighting.lexers],
    which the module imports and updates in place. *)
Definition register_lexers (lexers : gmap string lexer) : gmap string lexer :=
  <["php-annotations" := PhpLexer true]> (<["php" := PhpLexer true]> lexers).

(** ** Vocabulary of the properties *)

(** World [w] with [evs] (most recent first) added to its trace. *)
Definition extend (evs : list event) (w : World) : World :=
  {| environ := environ w; today := today w; shell := shell w;
     trace := evs ++ trace w |}.

(** Two worlds that differ at most in their traces. *)
Definition same_state (w w' : World) : Prop :=
  environ w' = environ w /\ today w' = today w /\ shell w' = shell w.

(** The hosted build offers a version: the flag compares equal to ["True"]
    and the version variable is present and non-empty. *)
Definition hosted_available (w : World) : bool :=
  bool_decide (environ w !! "READTHEDOCS" = Some "True")
  && Py.truthy_opt (environ w !! "READTHEDOCS_VERSION").

(** The version-control query yields nothing usable: spawning or reading
    raises, or the text read is empty or all whitespace. *)
Definition git_fails (r : popen_result) : bool :=
  match r with
  | SpawnRaises _ => true
  | Spawned p =>
      match stdout p with
      | ReadRaises _ => true
      | ReadText out => Py.blank out
      end
  end.

(** The version-control query exits with status zero after printing [out],
    which holds more than whitespace. *)
Definition git_succeeds (r : popen_result) (out : string) : Prop :=
  r = Spawned {| stdout := ReadText out; returncode := 0 |}
  /\ Py.blank out = false.

(** The child ran and ended with a non-zero exit status. *)
Definition nonzero_exit (r : popen_result) : bool :=
  match r with
  | SpawnRaises _ => false
  | Spawned p => negb (returncode p =? 0)%Z
  end.

(** [r] is [s] without its surrounding whitespace. *)
Definition trimmed_of (s r : string) : Prop :=
  (exists pre post,
      s = pre +:+ r +:+ post /\ Py.blank pre = true /\ Py.blank post = true)
  /\ (forall c, Py.first r = Some c -> Py.isspace c = false)
  /\ (forall c, Py.last r = Some c -> Py.isspace c = false).

(** Value of the version-control tier with its placeholder, read off the
    behaviour of the shell. *)
Definition git_label (r : popen_result) : string :=
  match r with
  | SpawnRaises _ => "latest"
  | Spawned p =>
      match stdout p with
      | ReadRaises _ => "latest"
      | ReadText out => if Py.blank out then "latest" else Py.strip out
      end
  end.

(** Effects of the version-control tier, most recent first. *)
Definition git_events (r : popen_result) : list event :=
  match r with
  | SpawnRaises _ => [Spawn git_cmd]
  | Spawned _ => [PipeRead; Spawn git_cmd]
  end.

(** The resolved version, read off the environment and the behaviour of the
    shell. *)
Definition resolved (w : World) : string :=
  if hosted_available w
  then default "" (environ w !! "READTHEDOCS_VERSION")
  else git_label (shell w git_cmd).

(** Effects of one call of [get_version], most recent first. *)
Definition lookups (w : World) : list event :=
  if bool_decide (environ w !! "READTHEDOCS" = Some "True")
  then [EnvGet "READTHEDOCS_VERSION"; EnvGet "READTHEDOCS"]
  else [EnvGet "READTHEDOCS"].

Definition events (w : World) : list event :=
  (if hosted_available w then [] else git_events (shell w git_cmd))
  ++ lookups w.

(** The years from 1000 to 9999. *)
Definition four_digit_years : list N :=
  map (fun k => 1000 + N.of_nat k) (seq 0 (N.to_nat 9000)).

(** [strftime("%Y")] writes year [y] with exactly four characters. *)
Definition renders_four (y : N) : bool :=
  Nat.eqb (String.length (strftime_Y {| year := y; month := 1; day := 1 |})) 4.

(** The same outcome of a spawn, with the child ending in status [rc]. *)
Definition with_returncode (rc : Z) (r : popen_result) : popen_result :=
  match r with
  | SpawnRaises e => SpawnRaises e
  | Spawned p => Spawned {| stdout := stdout p; returncode := rc |}
  end.

(** World [w] in which every child ends with status [rc]. *)
Definition exiting_with (rc : Z) (w : World) : World :=
  {| environ := environ w; today := today w;
     shell := fun cmd => with_returncode rc (shell w cmd);
     trace := trace w |}.

(** The effects [get_version] is written to perform. *)
Definition in_footprint (e : event) : bool :=
  bool_decide (e = EnvGet "READTHEDOCS")
  || bool_decide (e = EnvGet "READTHEDOCS_VERSION")
  || bool_decide (e = Spawn git_cmd)
  || bool_decide (e = PipeRead).

(** Spawning or reading raises. *)
Definition git_raises (r : popen_result) : bool :=
  match r with
  | SpawnRaises _ => true
  | Spawned p =>
      match stdout p with
      | ReadRaises _ => true
      | ReadText _ => false
      end
  end.

(** ** Sample worlds *)

Definition no_git : string -> popen_result := fun _ =>
  Spawned {| stdout := ReadText ""; returncode := 127 |}.

Definition git_prints (out : string) (rc : Z) : string -> popen_result :=
  fun cmd =>
    if String.eqb cmd git_cmd
    then Spawned {| stdout := ReadText out; returncode := rc |}
    else no_git cmd.

Definition nl : string := String "010" "".

Definition a_day : date := {| year := 2026; month := 11; day := 4 |}.

(** A hosted build of the [stable] version. *)
Definition w_hosted : World :=
  {| environ := <["READTHEDOCS_VERSION" := "stable"]>
                (<["READTHEDOCS" := "True"]> ∅);
     today := a_day; shell := no_git; trace := [] |}.

(** A local checkout on branch [main]. *)
Definition w_local : World :=
  {| environ := <["HOME" := "/home/dev"]> ∅;
     today := a_day; shell := git_prints ("main" +:+ nl) 0; trace := [] |}.

(** The hosted flag is set, the version variable is not, and the checkout is
    on branch [main]. *)
Definition w_flag_only : World :=
  {| environ := <["READTHEDOCS" := "True"]> ∅;
     today := a_day; shell := git_prints ("main" +:+ nl) 0; trace := [] |}.

(** A repository without commits: git prints [HEAD] and exits with 128. *)
Definition w_unborn : World :=
  {| environ := ∅;
     today := a_day; shell := git_prints ("HEAD" +:+ nl) 128; trace := [] |}.

(** No git on the path: the shell prints nothing on stdout, status 127. *)
Definition w_no_git : World :=
  {| environ := ∅; today := a_day; shell := no_git; trace := [] |}.

(** The same checkout as [w_local] on another day, with other variables set
    and some effects already performed. *)
Definition w_local' : World :=
  {| environ := <["LANG" := "C"]> ∅;
     today := {| year := 2027; month := 1; day := 2 |};
     shell := git_prints ("main" +:+ nl) 0; trace := [ClockRead] |}.

(** Flag values that are not the exact string ["True"]. *)
Definition w_flag (v : string) : World :=
  {| environ := <["READTHEDOCS_VERSION" := "stable"]>
                (<["READTHEDOCS" := v]> ∅);
     today := a_day; shell := git_prints ("main" +:+ nl) 0; trace := [] |}.

(** The shell cannot be started at all. *)
Definition w_no_shell : World :=
  {| environ := ∅; today := a_day;
     shell := fun _ => SpawnRaises PermissionError; trace := [] |}.

(** A registry that already holds lexers. *)
Definition some_lexers : gmap string lexer :=
  <["php" := PhpLexer false]> (<["python" := OtherLexer "PythonLexer"]> ∅).

(** What a run returned, if it returned. *)
Definition returned {A} (r : outcome A * World) : option A :=
  match r.1 with
  | Ret a => Some a
  | Raise _ => None
  end.

(** ** Running the definitions *)

Example strip_branch : Py.strip ("  main" +:+ nl) = "main".
Proof. reflexivity. Qed.

Example strip_inner : Py.strip " release 1.x  " = "release 1.x".
Proof. reflexivity. Qed.

Example strip_blank : Py.strip (String "009" (String "010" " ")) = "".
Proof. reflexivity. Qed.

Example run_hosted : get_version w_hosted =
  (Ret "stable", extend [EnvGet "READTHEDOCS_VERSION"; EnvGet "READTHEDOCS"] w_hosted).
Proof. reflexivity. Qed.

Example run_local : get_version w_local =
  (Ret "main", extend [PipeRead; Spawn git_cmd; EnvGet "READTHEDOCS"] w_local).
Proof. reflexivity. Qed.

Example run_no_git : returned (get_version w_no_git) = Some "latest".
Proof. reflexivity. Qed.

Example run_conf_copyright : copyright <$> returned (conf w_local) = Some "2024-2026".
Proof. reflexivity. Qed.

Example run_conf_context :
  (fun c => html_context c !! "github_version") <$> returned (conf w_local)
  = Some (Some (PyStr "main")).
Proof. reflexivity. Qed.

(** [except Exception] lets a [KeyboardInterrupt] through. *)
Example try_except_selective (w : World) :
  (try_except_Exception (fun w => (Raise KeyboardInterrupt, w)) (mret "latest") w).1
  = Raise KeyboardInterrupt
  /\ (try_except_Exception (fun w => (Raise (IOErr OSError), w)) (mret "latest") w).1
     = Ret "latest".
Proof. split; reflexivity. Qed.

(** ** Facts about the string primitives *)

Section Strings.

Implicit Types (s r : string) (c : ascii).

Lemma app_nil_l s : "" +:+ s = s.
Proof. reflexivity. Qed.

Lemma app_cons c s r : String c s +:+ r = String c (s +:+ r).
Proof. reflexivity. Qed.

Lemma app_nil_r s : s +:+ "" = s.
Proof. induction s as [|c s IH]; [done|]. by rewrite app_cons, IH. Qed.

Lemma truthy_false s : Py.truthy s = false <-> s = "".
Proof. destruct s; simpl; split; congruence. Qed.

Lemma truthy_true s : Py.truthy s = true <-> s <> "".
Proof. destruct s; simpl; split; congruence. Qed.

Lemma or_empty_r s : Py.or s "" = s.
Proof. by destruct s. Qed.

Lemma or_nonempty s r : r <> "" -> Py.or s r <> "".
Proof. destruct s; simpl; [done|]. intros _. unfold Py.or. simpl. congruence. Qed.

Lemma or_truthy s r : s <> "" -> Py.or s r = s.
Proof. by destruct s. Qed.

Lemma blank_app s r : Py.blank (s +:+ r) = Py.blank s && Py.blank r.
Proof.
  induction s as [|c s IH]; [done|].
  rewrite app_cons. simpl. rewrite IH. by destruct (Py.isspace c).
Qed.

Lemma lstrip_split s :
  exists pre, s = pre +:+ Py.lstrip s /\ Py.blank pre = true.
Proof.
  induction s as [|c s (pre & Hs & Hpre)].
  - by exists "".
  - simpl. destruct (Py.isspace c) eqn:Hc.
    + exists (String c pre). rewrite app_cons, <- Hs. simpl. by rewrite Hc.
    + by exists "".
Qed.

Lemma rstrip_split s :
  exists post, s = Py.rstrip s +:+ post /\ Py.blank post = true.
Proof.
  induction s as [|c s (post & Hs & Hpost)].
  - by exists "".
  - simpl. destruct (Py.isspace c) eqn:Hc; simpl.
    + destruct (Py.rstrip s) eqn:Hr; simpl.
      * exists (String c s). split; [done|]. simpl.
        rewrite Hc. rewrite Hs. by rewrite app_nil_l.
      * exists post. by rewrite app_cons, <- Hs.
    + exists post. by rewrite app_cons, <- Hs.
Qed.

Lemma lstrip_first s c : Py.first (Py.lstrip s) = Some c -> Py.isspace c = false.
Proof.
  induction s as [|c' s IH]; simpl; [done|].
  destruct (Py.isspace c') eqn:Hc; [done|]. simpl. congruence.
Qed.

Lemma rstrip_last s c : Py.last (Py.rstrip s) = Some c -> Py.isspace c = false.
Proof.
  induction s as [|c' s IH]; simpl; [done|].
  destruct (Py.rstrip s) as [|c'' r] eqn:Hr.
  - destruct (Py.isspace c') eqn:Hc; simpl; congruence.
  - rewrite andb_false_r. simpl in *. done.
Qed.

Lemma rstrip_first s c :
  Py.first s = Some c -> Py.isspace c = false -> Py.first (Py.rstrip s) = Some c.
Proof.
  destruct s as [|c' s]; simpl; [done|].
  intros [= ->] ->. done.
Qed.

Lemma rstrip_blank s : Py.rstrip s = "" <-> Py.blank s = true.
Proof.
  induction s as [|c s IH]; simpl; [done|].
  destruct (Py.isspace c); simpl.
  - destruct (Py.rstrip s) eqn:Hr; simpl.
    + split; [|done]. intros _. by apply IH.
    + split; [done|]. intros Hb. apply IH in Hb. done.
  - split; done.
Qed.

Lemma lstrip_blank s : Py.blank (Py.lstrip s) = Py.blank s.
Proof.
  induction s as [|c s IH]; simpl; [done|].
  destruct (Py.isspace c) eqn:Hc; simpl; [done|]. by rewrite Hc.
Qed.

Lemma strip_blank_iff s : Py.strip s = "" <-> Py.blank s = true.
Proof. unfold Py.strip. by rewrite rstrip_blank, lstrip_blank. Qed.

Lemma strip_not_blank s : Py.blank s = false -> Py.strip s <> "".
Proof. intros Hb Hs. apply strip_blank_iff in Hs. congruence. Qed.

(** [strip] removes whitespace at both ends and nothing else. *)
Lemma strip_trimmed s : trimmed_of s (Py.strip s).
Proof.
  unfold trimmed_of, Py.strip. split; [|split].
  - destruct (lstrip_split s) as (pre & Hs & Hpre).
    destruct (rstrip_split (Py.lstrip s)) as (post & Hl & Hpost).
    exists pre, post. by rewrite <- Hl.
  - intros c Hc. destruct (Py.lstrip s) as [|c' t] eqn:Hl; [done|].
    assert (Hsp : Py.isspace c' = false).
    { apply (lstrip_first s). by rewrite Hl. }
    rewrite (rstrip_first (String c' t) c') in Hc by done. congruence.
  - apply rstrip_last.
Qed.

End Strings.

(** ** Running [get_version] and the module body *)

Section Runs.

Implicit Types (w : World) (evs : list event).

Lemma extend_log evs e w : extend evs (log e w) = extend (evs ++ [e]) w.
Proof. unfold extend, log. simpl. by rewrite <- app_assoc. Qed.

Lemma extend_extend evs evs' w :
  extend evs (extend evs' w) = extend (evs ++ evs') w.
Proof. unfold extend. simpl. by rewrite <- app_assoc. Qed.

Lemma same_state_extend evs w : same_state w (extend evs w).
Proof. done. Qed.

Lemma label_of_text out :
  Py.or (Py.strip (Py.or out "")) "latest"
  = if Py.blank out then "latest" else Py.strip out.
Proof.
  rewrite or_empty_r. destruct (Py.blank out) eqn:Hb.
  - apply strip_blank_iff in Hb. by rewrite Hb.
  - apply or_truthy. by apply strip_not_blank.
Qed.

(** The [try] block always returns: the label of the query, after one
    spawn and at most one read. *)
Lemma get_version_git_run w :
  get_version_git w
  = (Ret (git_label (shell w git_cmd)),
     extend (git_events (shell w git_cmd)) w).
Proof.
  unfold get_version_git, try_except_Exception, mbind, M_bind, Popen,
    stdout_read, mret, M_ret, git_label, git_events.
  destruct (shell w git_cmd) as [e|[[e|out] rc]]; simpl; try done.
  by rewrite label_of_text.
Qed.

Lemma git_label_nonempty r : git_label r <> "".
Proof.
  destruct r as [e|[[e|out] rc]]; simpl; try done.
  destruct (Py.blank out) eqn:Hb; [done|]. by apply strip_not_blank.
Qed.

Lemma git_label_fails r : git_fails r = true -> git_label r = "latest".
Proof.
  destruct r as [e|[[e|out] rc]]; simpl; try done. by intros ->.
Qed.

Lemma git_label_text out rc :
  Py.blank out = false ->
  git_label (Spawned {| stdout := ReadText out; returncode := rc |})
  = Py.strip out.
Proof. simpl. by intros ->. Qed.

Lemma spawn_in_git_events r : Spawn git_cmd ∈ git_events r.
Proof. destruct r; simpl; set_solver. Qed.

(** One call of [get_version]: it returns [resolved w] and leaves the
    world as it was, with [events w] added to the trace. *)
Lemma get_version_run w :
  get_version w = (Ret (resolved w), extend (events w) w).
Proof.
  unfold get_version, resolved, events, lookups, hosted_available,
    environ_get, mbind, M_bind.
  destruct (decide (environ w !! "READTHEDOCS" = Some "True")) as [Hf|Hf].
  - rewrite (bool_decide_eq_true_2 _ Hf). simpl.
    destruct (environ w !! "READTHEDOCS_VERSION") as [[|c v]|] eqn:Hv;
      simpl; rewrite ?get_version_git_run, ?extend_log, ?extend_extend;
      simpl; try done.
    + by rewrite <- app_assoc.
    + by rewrite <- app_assoc.
  - rewrite (bool_decide_eq_false_2 _ Hf). simpl.
    by rewrite get_version_git_run, extend_log.
Qed.

Lemma resolved_nonempty w : resolved w <> "".
Proof.
  unfold resolved, hosted_available.
  destruct (bool_decide _); simpl; [|apply git_label_nonempty].
  destruct (environ w !! "READTHEDOCS_VERSION") as [v|]; simpl.
  - destruct (Py.truthy v) eqn:Hv; [by apply truthy_true|].
    apply git_label_nonempty.
  - apply git_label_nonempty.
Qed.

Lemma resolved_unavailable w :
  hosted_available w = false -> resolved w = git_label (shell w git_cmd).
Proof. unfold resolved. by intros ->. Qed.

Lemma unflagged_unavailable w :
  environ w !! "READTHEDOCS" <> Some "True" -> hosted_available w = false.
Proof.
  intros Hf. unfold hosted_available. by rewrite (bool_decide_eq_false_2 _ Hf).
Qed.

(** The module body always runs to its end. *)
Lemma conf_run w :
  exists c,
    conf w = (Ret c, extend (events w ++ [ClockRead]) w)
    /\ year_now c = strftime_Y (today w)
    /\ copyright c = "2024-" +:+ strftime_Y (today w)
    /\ version c = resolved w
    /\ release c = version c
    /\ html_context c !! "github_version" = Some (PyStr (version c)).
Proof.
  unfold conf, date_today, mbind, M_bind.
  rewrite get_version_run, extend_log. simpl.
  eexists. split; [reflexivity|]. simpl. repeat split.
Qed.

End Runs.

(** ** Rendering of the year *)

Section Years.

Lemma in_four_digit_years y : 1000 <= y <= 9999 -> In y four_digit_years.
Proof.
  intros Hy. unfold four_digit_years. apply in_map_iff.
  exists (N.to_nat (y - 1000)). split; [lia|]. apply in_seq. lia.
Qed.

Lemma renders_four_range : forallb renders_four four_digit_years = true.
Proof. vm_compute. reflexivity. Qed.

Lemma strftime_Y_length d :
  1000 <= year d <= 9999 -> String.length (strftime_Y d) = 4%nat.
Proof.
  intros Hy. pose proof renders_four_range as Hall.
  rewrite forallb_forall in Hall.
  specialize (Hall (year d) (in_four_digit_years _ Hy)).
  by apply Nat.eqb_eq in Hall.
Qed.

Lemma strftime_Y_reads_back d :
  NilEmpty.uint_of_string (strftime_Y d) = Some (N.to_uint (year d)).
Proof. unfold strftime_Y. apply NilEmpty.usu. Qed.

End Years.

(** ** Properties of the version resolution *)

(** C1: when the hosted-build flag is set ([READTHEDOCS] is ["True"]) and
    [READTHEDOCS_VERSION] is present and non-empty, [get_version] returns
    that variable's value unchanged. *)
Theorem get_version_hosted_verbatim (w : World) (v : string) :
  environ w !! "READTHEDOCS" = Some "True" ->
  environ w !! "READTHEDOCS_VERSION" = Some v ->
  v <> "" ->
  (get_version w).1 = Ret v.
Proof.
  intros Hf Hv Hne. rewrite get_version_run. simpl. f_equal.
  unfold resolved, hosted_available.
  rewrite (bool_decide_eq_true_2 _ Hf), Hv. simpl.
  apply truthy_true in Hne. by rewrite Hne.
Qed.

Lemma get_version_hosted_verbatim_witness :
  (get_version w_hosted).1 = Ret "stable".
Proof.
  apply (get_version_hosted_verbatim w_hosted "stable");
    [reflexivity | reflexivity | discriminate].
Defined.

(** C2: when the hosted-build flag is absent and the version-control
    subprocess succeeds, [get_version] returns its standard output with the
    surrounding whitespace trimmed. *)
Theorem get_version_git_trimmed (w : World) (out : string) :
  environ w !! "READTHEDOCS" = None ->
  git_succeeds (shell w git_cmd) out ->
  (get_version w).1 = Ret (Py.strip out) /\ trimmed_of out (Py.strip out).
Proof.
  intros Hf [Hr Hb]. split; [|apply strip_trimmed].
  rewrite get_version_run. simpl. f_equal.
  rewrite resolved_unavailable.
  - rewrite Hr. by apply git_label_text.
  - apply unflagged_unavailable. by rewrite Hf.
Qed.

Lemma get_version_git_trimmed_witness :
  (get_version w_local).1 = Ret "main"
  /\ trimmed_of ("main" +:+ nl) "main".
Proof.
  apply (get_version_git_trimmed w_local ("main" +:+ nl));
    [reflexivity | split; reflexivity].
Defined.

(** C3, as stated, fails: with the flag set and the version variable absent,
    the version-control step is consulted and its answer is returned instead
    of the placeholder. *)
Lemma flag_only_consults_git :
  environ w_flag_only !! "READTHEDOCS" = Some "True"
  /\ environ w_flag_only !! "READTHEDOCS_VERSION" = None
  /\ (get_version w_flag_only).1 = Ret "main"
  /\ (get_version w_flag_only).1 <> Ret "latest"
  /\ Spawn git_cmd ∈ trace (get_version w_flag_only).2.
Proof.
  split; [reflexivity|]. split; [reflexivity|]. split; [reflexivity|].
  split; [discriminate|]. vm_compute. set_solver.
Qed.

(** C3, amended: when the flag is set but the version variable is absent or
    empty, [get_version] goes on to the version-control query, exactly as it
    does without the flag; it returns the trimmed output of the query when
    that holds more than whitespace, and the placeholder when the query
    raises or yields blank text. *)
Theorem get_version_flag_only (w : World) :
  environ w !! "READTHEDOCS" = Some "True" ->
  Py.truthy_opt (environ w !! "READTHEDOCS_VERSION") = false ->
  (get_version w).1 = Ret (git_label (shell w git_cmd))
  /\ (get_version w).1 = (get_version_git w).1
  /\ Spawn git_cmd ∈ trace (get_version w).2.
Proof.
  intros Hf Hv.
  assert (Hu : hosted_available w = false).
  { unfold hosted_available. rewrite Hv. apply andb_false_r. }
  rewrite get_version_run, get_version_git_run. simpl.
  rewrite (resolved_unavailable _ Hu). split; [done|]. split; [done|].
  unfold events. rewrite Hu.
  pose proof (spawn_in_git_events (shell w git_cmd)). set_solver.
Qed.

Lemma get_version_flag_only_witness :
  (get_version w_flag_only).1 = Ret (git_label (shell w_flag_only git_cmd))
  /\ (get_version w_flag_only).1 = (get_version_git w_flag_only).1
  /\ Spawn git_cmd ∈ trace (get_version w_flag_only).2.
Proof.
  apply (get_version_flag_only w_flag_only); reflexivity.
Defined.

(** C4, as stated, fails: a non-zero exit status is not a failure for
    [get_version].  In a repository without commits git prints [HEAD] and
    exits with 128; the result is ["HEAD"], not ["latest"]. *)
Lemma nonzero_exit_not_latest :
  hosted_available w_unborn = false
  /\ nonzero_exit (shell w_unborn git_cmd) = true
  /\ (get_version w_unborn).1 = Ret "HEAD"
  /\ (get_version w_unborn).1 <> Ret "latest".
Proof. repeat split; try reflexivity. discriminate. Qed.

(** C4, amended: when the hosted source is unavailable and the
    version-control query raises on spawn or on read, or yields empty or
    whitespace-only output (whatever its exit status), [get_version] returns
    ["latest"] and raises nothing. *)
Theorem get_version_git_failure (w : World) :
  hosted_available w = false ->
  git_fails (shell w git_cmd) = true ->
  (get_version w).1 = Ret "latest".
Proof.
  intros Hu Hfail. rewrite get_version_run. simpl. f_equal.
  rewrite (resolved_unavailable _ Hu). by apply git_label_fails.
Qed.

Lemma get_version_git_failure_witness :
  (get_version w_no_git).1 = Ret "latest".
Proof.
  apply (get_version_git_failure w_no_git); reflexivity.
Defined.

(** C5: for every environment and every outcome of the subprocess,
    [get_version] returns a string, and that string, hence the module-level
    [version], is non-empty. *)
Theorem version_nonempty (w : World) :
  (exists s, (get_version w).1 = Ret s /\ s <> "")
  /\ (exists c, (conf w).1 = Ret c /\ version c <> "").
Proof.
  split.
  - exists (resolved w). rewrite get_version_run. split; [done|].
    apply resolved_nonempty.
  - destruct (conf_run w) as (c & Hc & _ & _ & Hv & _).
    exists c. rewrite Hc. split; [done|]. rewrite Hv. apply resolved_nonempty.
Qed.

(** C6: [copyright] is computed from the date of the build: it is ["2024-"]
    followed by the current year written with four digits. *)
Theorem copyright_current_year (w : World) :
  1000 <= year (today w) <= 9999 ->
  exists c yyyy,
    (conf w).1 = Ret c
    /\ copyright c = "2024-" +:+ yyyy
    /\ String.length yyyy = 4%nat
    /\ NilEmpty.uint_of_string yyyy = Some (N.to_uint (year (today w))).
Proof.
  intros Hy. destruct (conf_run w) as (c & Hc & _ & Hcopy & _).
  exists c, (strftime_Y (today w)). rewrite Hc. split; [done|].
  split; [done|]. split.
  - by apply strftime_Y_length.
  - apply strftime_Y_reads_back.
Qed.

Lemma copyright_current_year_witness :
  exists c yyyy,
    (conf w_local).1 = Ret c
    /\ copyright c = "2024-" +:+ yyyy
    /\ String.length yyyy = 4%nat
    /\ NilEmpty.uint_of_string yyyy = Some (N.to_uint 2026).
Proof.
  apply (copyright_current_year w_local). simpl. lia.
Defined.

(** C7: the hosted branch is taken only when [READTHEDOCS] compares equal to
    the exact string ["True"]; for any other value, or none, [get_version]
    goes to the version-control query and never looks at
    [READTHEDOCS_VERSION]. *)
Theorem get_version_flag_exact (w : World) :
  environ w !! "READTHEDOCS" <> Some "True" ->
  (get_version w).1 = (get_version_git w).1
  /\ exists evs,
      trace (get_version w).2 = evs ++ trace w
      /\ Spawn git_cmd ∈ evs
      /\ EnvGet "READTHEDOCS_VERSION" ∉ evs.
Proof.
  intros Hf. pose proof (unflagged_unavailable _ Hf) as Hu.
  rewrite get_version_run, get_version_git_run. simpl.
  rewrite (resolved_unavailable _ Hu). split; [done|].
  exists (events w). split; [done|].
  unfold events, lookups. rewrite Hu, (bool_decide_eq_false_2 _ Hf).
  pose proof (spawn_in_git_events (shell w git_cmd)) as Hs.
  split; [set_solver|].
  rewrite list_elem_of_In.
  destruct (shell w git_cmd); simpl; intuition discriminate.
Qed.

Lemma get_version_flag_exact_witness :
  (get_version (w_flag "true")).1 = (get_version_git (w_flag "true")).1
  /\ exists evs,
      trace (get_version (w_flag "true")).2 = evs ++ trace (w_flag "true")
      /\ Spawn git_cmd ∈ evs
      /\ EnvGet "READTHEDOCS_VERSION" ∉ evs.
Proof.
  apply (get_version_flag_exact (w_flag "true")). vm_compute. discriminate.
Defined.

Example flag_lowercase : returned (get_version (w_flag "true")) = Some "main".
Proof. reflexivity. Qed.

Example flag_one : returned (get_version (w_flag "1")) = Some "main".
Proof. reflexivity. Qed.

Example flag_unset : returned (get_version w_local) = Some "main".
Proof. reflexivity. Qed.

Example flag_exact : returned (get_version (w_flag "True")) = Some "stable".
Proof. reflexivity. Qed.

(** C8: after the module body has run, [release] and the [github_version]
    entry of [html_context] both equal [version], the value of the one call
    of [get_version]. *)
Theorem release_and_context_follow_version (w : World) :
  exists c evs,
    conf w = (Ret c, extend evs w)
    /\ release c = version c
    /\ html_context c !! "github_version" = Some (PyStr (version c))
    /\ (get_version w).1 = Ret (version c)
    /\ count_occ event_eq_dec evs (EnvGet "READTHEDOCS") = 1%nat.
Proof.
  destruct (conf_run w) as (c & Hc & _ & _ & Hv & Hr & Hg).
  exists c, (events w ++ [ClockRead]). split; [done|].
  split; [done|]. split; [done|]. split.
  - rewrite get_version_run. simpl. by rewrite Hv.
  - rewrite count_occ_app. unfold events, lookups.
    rewrite count_occ_app.
    destruct (hosted_available w), (bool_decide _),
      (shell w git_cmd); reflexivity.
Qed.

(** C9: [get_version] is deterministic in its inputs: two runs that see the
    same values of the two environment variables and the same outcome of the
    version-control subprocess return the same string, and neither run
    changes anything but the trace. *)
Theorem get_version_deterministic (w1 w2 : World) :
  environ w1 !! "READTHEDOCS" = environ w2 !! "READTHEDOCS" ->
  environ w1 !! "READTHEDOCS_VERSION" = environ w2 !! "READTHEDOCS_VERSION" ->
  shell w1 git_cmd = shell w2 git_cmd ->
  (get_version w1).1 = (get_version w2).1
  /\ same_state w1 (get_version w1).2
  /\ same_state w2 (get_version w2).2.
Proof.
  intros Hf Hv Hs. rewrite !get_version_run. simpl.
  split; [|split; apply same_state_extend].
  f_equal. unfold resolved, hosted_available. by rewrite Hf, Hv, Hs.
Qed.

Lemma get_version_deterministic_witness :
  (get_version w_local).1 = (get_version w_local').1
  /\ same_state w_local (get_version w_local).2
  /\ same_state w_local' (get_version w_local').2.
Proof.
  apply (get_version_deterministic w_local w_local'); reflexivity.
Defined.

(** ** More about the string primitives *)

Section Trimming.

Implicit Types (s : string) (c : ascii).

Lemma lstrip_fixed s :
  (forall c, Py.first s = Some c -> Py.isspace c = false) -> Py.lstrip s = s.
Proof.
  destruct s as [|c s]; simpl; [done|].
  intros H. by rewrite (H c eq_refl).
Qed.

Lemma rstrip_idem s : Py.rstrip (Py.rstrip s) = Py.rstrip s.
Proof.
  induction s as [|c s IH]; simpl; [done|].
  destruct (Py.isspace c && negb (Py.truthy (Py.rstrip s))) eqn:Hc; [done|].
  simpl. by rewrite IH, Hc.
Qed.

Lemma strip_idem s : Py.strip (Py.strip s) = Py.strip s.
Proof.
  destruct (strip_trimmed s) as (_ & Hfirst & _).
  unfold Py.strip at 1. rewrite (lstrip_fixed _ Hfirst).
  unfold Py.strip. apply rstrip_idem.
Qed.

Lemma strip_keeps_text s : Py.blank s = false -> Py.blank (Py.strip s) = false.
Proof.
  intros Hb. destruct (Py.blank (Py.strip s)) eqn:Hs; [|done].
  apply strip_blank_iff in Hs. rewrite strip_idem in Hs.
  by apply strip_not_blank in Hb.
Qed.

End Trimming.

(** ** Effects and frame of the version resolution *)

Section Effects.

Implicit Types (w : World) (r : popen_result).

Lemma git_label_trimmed r :
  Py.strip (git_label r) = git_label r /\ Py.blank (git_label r) = false.
Proof.
  destruct r as [e|[[e|out] rc]]; simpl; try done.
  destruct (Py.blank out) eqn:Hb; [done|].
  split; [apply strip_idem | by apply strip_keeps_text].
Qed.

Lemma git_label_returncode rc r : git_label (with_returncode rc r) = git_label r.
Proof. by destruct r. Qed.

Lemma git_events_returncode rc r : git_events (with_returncode rc r) = git_events r.
Proof. by destruct r. Qed.


Lemma not_in_lookups w e :
  e <> EnvGet "READTHEDOCS" -> e <> EnvGet "READTHEDOCS_VERSION" ->
  e ∉ lookups w.
Proof.
  intros H1 H2. rewrite list_elem_of_In. unfold lookups.
  destruct (bool_decide _); simpl; intuition congruence.
Qed.

Lemma not_in_git_events r e :
  e <> Spawn git_cmd -> e <> PipeRead -> e ∉ git_events r.
Proof.
  intros H1 H2. rewrite list_elem_of_In.
  destruct r; simpl; intuition congruence.
Qed.

End Effects.

(** X1: a hosted build resolves its version from the environment alone: when
    the flag is ["True"] and the version variable is non-empty, one call of
    [get_version] performs the two lookups, in that order, and nothing else;
    no process is spawned. *)
Theorem hosted_run_spawns_nothing (w : World) :
  hosted_available w = true ->
  trace (get_version w).2
  = EnvGet "READTHEDOCS_VERSION" :: EnvGet "READTHEDOCS" :: trace w.
Proof.
  intros Ha. rewrite get_version_run. simpl. unfold events, lookups.
  rewrite Ha. apply andb_true_iff in Ha as [Hf _]. by rewrite Hf.
Qed.

Lemma hosted_run_spawns_nothing_witness :
  trace (get_version w_hosted).2
  = EnvGet "READTHEDOCS_VERSION" :: EnvGet "READTHEDOCS" :: trace w_hosted.
Proof. apply (hosted_run_spawns_nothing w_hosted). reflexivity. Defined.

(** X2: git is spawned exactly when the hosted build offers no version, and
    [READTHEDOCS_VERSION] is looked up exactly when [READTHEDOCS] is
    ["True"]. *)
Theorem git_spawned_iff_unavailable (w : World) :
  exists evs,
    trace (get_version w).2 = evs ++ trace w
    /\ (Spawn git_cmd ∈ evs <-> hosted_available w = false)
    /\ (EnvGet "READTHEDOCS_VERSION" ∈ evs
        <-> environ w !! "READTHEDOCS" = Some "True").
Proof.
  exists (events w). rewrite get_version_run. split; [done|].
  unfold events. split.
  - destruct (hosted_available w) eqn:Ha; simpl.
    + split; [|done]. intros Hin. exfalso. revert Hin.
      by apply not_in_lookups.
    + split; [done|]. intros _. apply elem_of_app. left.
      apply spawn_in_git_events.
  - rewrite elem_of_app. split.
    + intros [Hin|Hin].
      * exfalso. revert Hin.
        destruct (hosted_available w); [apply not_elem_of_nil|].
        by apply not_in_git_events.
      * unfold lookups in Hin.
        destruct (decide (environ w !! "READTHEDOCS" = Some "True"))
          as [Hf|Hf]; [done|].
        rewrite (bool_decide_eq_false_2 _ Hf) in Hin.
        apply list_elem_of_In in Hin. simpl in Hin. intuition congruence.
    + intros Hf. right. unfold lookups.
      rewrite (bool_decide_eq_true_2 _ Hf). apply list_elem_of_here.
Qed.

(** X3: whatever the world, one call of [get_version] starts with the lookup
    of [READTHEDOCS], touches nothing but the two variables and the one git
    command line, and spawns at most once: a failed query is not retried. *)
Theorem get_version_footprint (w : World) :
  exists evs,
    trace (get_version w).2 = evs ++ trace w
    /\ forallb in_footprint evs = true
    /\ (count_occ event_eq_dec evs (Spawn git_cmd) <= 1)%nat
    /\ last evs = Some (EnvGet "READTHEDOCS").
Proof.
  exists (events w). rewrite get_version_run. split; [done|].
  unfold events, lookups.
  destruct (hosted_available w), (bool_decide _), (shell w git_cmd);
    repeat split; simpl; lia.
Qed.

(** X4: a version that does not come from the hosted build is clean: it
    holds more than whitespace and has none at either end, so stripping it
    again changes nothing. *)
Theorem git_tier_trimmed (w : World) :
  hosted_available w = false ->
  exists s,
    (get_version w).1 = Ret s
    /\ Py.strip s = s
    /\ Py.blank s = false.
Proof.
  intros Hu. exists (git_label (shell w git_cmd)).
  rewrite get_version_run. simpl. rewrite (resolved_unavailable _ Hu).
  split; [done|]. apply git_label_trimmed.
Qed.

Lemma git_tier_trimmed_witness :
  exists s,
    (get_version w_local).1 = Ret s
    /\ Py.strip s = s
    /\ Py.blank s = false.
Proof. apply (git_tier_trimmed w_local). reflexivity. Defined.

(** X5: the exit status of the child is never consulted: changing it changes
    neither the resolved version nor the effects performed. *)
Theorem exit_status_ignored (w : World) (rc : Z) :
  (get_version (exiting_with rc w)).1 = (get_version w).1
  /\ trace (get_version (exiting_with rc w)).2 = trace (get_version w).2.
Proof.
  rewrite !get_version_run. simpl.
  unfold resolved, events, hosted_available, lookups. simpl.
  by rewrite git_label_returncode, git_events_returncode.
Qed.


(** X7: when spawning git or reading its output raises, the [try] block
    returns ["latest"]; it spawns once, and it reads the pipe only if the
    spawn went through. *)
Theorem git_error_handled (w : World) :
  git_raises (shell w git_cmd) = true ->
  exists evs,
    get_version_git w = (Ret "latest", extend evs w)
    /\ count_occ event_eq_dec evs (Spawn git_cmd) = 1%nat
    /\ (PipeRead ∈ evs <-> exists p, shell w git_cmd = Spawned p).
Proof.
  intros Hr. exists (git_events (shell w git_cmd)).
  rewrite get_version_git_run.
  destruct (shell w git_cmd) as [e|[[e|out] rc]]; simpl in *; try done.
  - split; [done|]. split; [done|]. split.
    + intros Hin. apply list_elem_of_In in Hin. simpl in Hin.
      intuition congruence.
    + by intros [p Hp].
  - split; [done|]. split; [done|]. split; [eauto|].
    intros _. apply list_elem_of_here.
Qed.

Lemma git_error_handled_witness :
  exists evs,
    get_version_git w_no_shell = (Ret "latest", extend evs w_no_shell)
    /\ count_occ event_eq_dec evs (Spawn git_cmd) = 1%nat
    /\ (PipeRead ∈ evs <-> exists p, shell w_no_shell git_cmd = Spawned p).
Proof. apply (git_error_handled w_no_shell). reflexivity. Defined.



Example register_over_existing :
  register_lexers some_lexers !! "php" = Some (PhpLexer true)
  /\ register_lexers some_lexers !! "python" = Some (OtherLexer "PythonLexer")
  /\ register_lexers some_lexers !! "ruby" = None.
Proof. repeat split. Qed.
